(** * CodeParser: a shallow embedding of [code_parser.py]

    The class [CodeParser] validates a source string, hands it to Python's
    [ast.parse] inside a [try]/[except], and reports the outcome as a
    dictionary.  The embedding follows the class method by method:

    - the instance attributes are a record, the heap of list objects is
      a [gmap]: [self.syntax_errors] is a reference, and the dictionary built
      by [_build_result] holds the same reference;
    - [ast.parse] and [time.time] are the two calls that leave the file;
      they are the variables [ast_parse] and [clock] of the section;
    - methods are computations in a state monad whose result is either a
      returned value or a raised exception. *)

From Stdlib Require Import ZArith NArith QArith List String Ascii Bool Lia.
From stdpp Require Import base option list gmap.

Close Scope Q_scope.
Open Scope list_scope.

(** ** Python values *)

(** A Python [str] is a sequence of Unicode code points. *)
Definition str : Type := list N.

(** The code points of an ASCII literal of the source file. *)
Definition str_of (s : string) : str :=
  map N_of_ascii (list_ascii_of_string s).
Arguments str_of : simpl never.

(** [str.isspace] on one code point: the code points Python counts as
    white space. *)
Definition isspace (c : N) : bool :=
  ((9 <=? c) && (c <=? 13) || (28 <=? c) && (c <=? 32)
   || (c =? 133) || (c =? 160) || (c =? 5760)
   || (8192 <=? c) && (c <=? 8202)
   || (c =? 8232) || (c =? 8233) || (c =? 8239) || (c =? 8287)
   || (c =? 12288))%N.

Fixpoint lstrip (s : str) : str :=
  match s with
  | [] => []
  | c :: s' => if isspace c then lstrip s' else s
  end.

Definition rstrip (s : str) : str := rev (lstrip (rev s)).

(** [str.strip()] with no argument. *)
Definition strip (s : str) : str := rstrip (lstrip s).

(** The values a caller can pass as [code]; the annotation says [str] but
    nothing enforces it, and [_validate_input] tests it. *)
Inductive PyValue : Type :=
| PyStr (s : str)
| PyNone
| PyBool (b : bool)
| PyInt (z : Z)
| PyBytes (b : list N).

(** [isinstance(code, str)] *)
Definition isinstance_str (v : PyValue) : bool :=
  match v with
  | PyStr _ => true
  | _ => false
  end.

(** ** Exceptions *)

(** The attributes of a [SyntaxError] that the code reads.  In Python
    [lineno] and [offset] are [int | None], each on its own. *)
Record SyntaxErrorObj : Type := mkSyntaxError {
  lineno : option Z;
  offset : option Z;
  msg : str
}.

(** What [ast.parse] raises: a [SyntaxError] (or a subclass of it, such as
    [IndentationError]), or another subclass of [Exception] ([ValueError],
    [RecursionError], [MemoryError], [TypeError], ...), of which the code
    reads [str(e)] only.  [KeyboardInterrupt] and [SystemExit], which are
    no subclasses of [Exception], do not come from parsing a text and are
    left out. *)
Inductive PyException : Type :=
| ExcSyntaxError (e : SyntaxErrorObj)
| ExcOther (description : str).

Inductive Outcome (A : Type) : Type :=
| Returns (a : A)
| Raises (e : PyException).
Arguments Returns {A} a.
Arguments Raises {A} e.

(** ** The dictionaries *)

(** One entry of [syntax_errors]: a dictionary with six fixed keys. *)
Record Diagnostic : Type := mkDiagnostic {
  type : str;
  line : option Z;
  column : option Z;
  message : str;
  severity : str;
  stage : str
}.

(** A reference to a list object. *)
Definition loc : Type := positive.

(** The dictionary returned by [_build_result]. *)
Module ParseResult.
Record t {AST : Type} : Type := mk {
  success : bool;
  ast_tree : option AST;
  syntax_errors : loc;
  parsing_time : Q
}.
Arguments t : clear implicits.
End ParseResult.

(** The attributes of an instance, under the names [__init__] gives them. *)
Record CodeParser {AST : Type} : Type := mkCodeParser {
  filenmae : option str;
  source_code : PyValue;
  ast_trees : option AST;
  syntax_errors : loc;
  parse_success : bool;
  parsing_time : Q
}.
Arguments CodeParser : clear implicits.

(** The state a method runs in: the instance, the heap of list objects,
    and two counters for the calls that leave the file: how often
    [time.time] was read, and the arguments [ast.parse] was called with,
    newest first. *)
Record Machine {AST : Type} : Type := mkMachine {
  self : CodeParser AST;
  heap : gmap loc (list Diagnostic);
  clock_reads : nat;
  parser_calls : list PyValue
}.
Arguments Machine : clear implicits.

(** ** Objects that are a [str] without being a plain one

    [isinstance(code, str)] also holds of an instance of a class derived
    from [str], and such a class can override [strip].  Of such an object
    [parse] looks at two things: its text, which [ast.parse] reads, and
    what its [strip()] does, which is to return a value or to raise. *)
Inductive PyObject : Type :=
| Builtin (v : PyValue)
| StrSubclass (text : str) (strip_result : Outcome PyValue).

(** The built-in value an object counts as: itself, or the text of the
    [str] it derives from. *)
Definition plain (o : PyObject) : PyValue :=
  match o with
  | Builtin v => v
  | StrSubclass text _ => PyStr text
  end.

(** [isinstance(code, str)] *)
Definition isinstance_str_object (o : PyObject) : bool :=
  match o with
  | Builtin v => isinstance_str v
  | StrSubclass _ _ => true
  end.

(** [code.strip()]: the method of [str], or the one the subclass puts in
    its place.  A built-in value that is no [str] has no such attribute. *)
Definition strip_outcome (o : PyObject) : Outcome PyValue :=
  match o with
  | Builtin (PyStr s) => Returns (PyStr (strip s))
  | Builtin _ => Raises (ExcOther (str_of "object has no attribute 'strip'"))
  | StrSubclass _ r => r
  end.

(** [v == ""] on a built-in value. *)
Definition is_empty_str (v : PyValue) : bool :=
  match v with
  | PyStr [] => true
  | _ => false
  end.

(** ** Sample environments

    A parser over trees that are the source text itself, and two clocks,
    to run the methods on. *)

(** Rejects a text with an opening parenthesis (code point 40) as a syntax
    error at line 1, column 1, a text with a null character as a
    [ValueError], and an argument that is no [str] as a [TypeError]. *)
Definition sample_parse (code : PyValue) : Outcome str :=
  match code with
  | PyStr s =>
      if existsb (N.eqb 40) s then
        Raises (ExcSyntaxError
                  (mkSyntaxError (Some 1%Z) (Some 1%Z)
                                 (str_of "'(' was never closed")))
      else if existsb (N.eqb 0) s then
        Raises (ExcOther (str_of "source code string cannot contain null bytes"))
      else Returns s
  | _ => Raises (ExcOther (str_of "expected str"))
  end.

(** A clock that advances by one second per reading. *)
Definition steady_clock (n : nat) : Q := inject_Z (Z.of_nat n).

(** A clock that is set back by two seconds after its first reading. *)
Definition set_back_clock (n : nat) : Q :=
  match n with
  | O => 5%Q
  | S _ => 3%Q
  end.

Section CodeParser.

(** The syntax trees of [ast]. *)
Context {AST : Type}.

(** [ast.parse(code)]: a tree, or an exception. *)
Variable ast_parse : PyValue → Outcome AST.

(** [clock n] is what the call number [n] of [time.time()] returns.
    [time.time()] is the wall clock: it may be set back between two
    calls. *)
Variable clock : nat → Q.

(** *** The monad *)

Definition M (A : Type) : Type := Machine AST → Outcome A * Machine AST.

Definition ret {A} (a : A) : M A := λ m, (Returns a, m).

Definition bind {A B} (c : M A) (k : A → M B) : M B :=
  λ m, match c m with
       | (Returns a, m') => k a m'
       | (Raises e, m') => (Raises e, m')
       end.

#[local] Instance M_ret : MRet M := @ret.
#[local] Instance M_bind : MBind M := λ A B k c, bind c k.

(** [try: body  except SyntaxError as e: ...  except Exception as e: ...]
    The two clauses are the two cases of [handler]. *)
Definition try_except {A} (body : M A) (handler : PyException → M A) : M A :=
  λ m, match body m with
       | (Returns a, m') => (Returns a, m')
       | (Raises e, m') => handler e m'
       end.

(** Attribute reads and writes on [self]. *)
Definition get {A} (f : CodeParser AST → A) : M A :=
  λ m, (Returns (f (self m)), m).

Definition update (f : CodeParser AST → CodeParser AST) : M unit :=
  λ m, (Returns tt,
        mkMachine AST (f (self m)) (heap m) (clock_reads m) (parser_calls m)).

Definition with_filenmae (v : option str) (p : CodeParser AST) :=
  mkCodeParser AST v (source_code p) (ast_trees p) (syntax_errors p)
               (parse_success p) (parsing_time p).
Definition with_source_code (v : PyValue) (p : CodeParser AST) :=
  mkCodeParser AST (filenmae p) v (ast_trees p) (syntax_errors p)
               (parse_success p) (parsing_time p).
Definition with_ast_trees (v : option AST) (p : CodeParser AST) :=
  mkCodeParser AST (filenmae p) (source_code p) v (syntax_errors p)
               (parse_success p) (parsing_time p).
Definition with_syntax_errors (v : loc) (p : CodeParser AST) :=
  mkCodeParser AST (filenmae p) (source_code p) (ast_trees p) v
               (parse_success p) (parsing_time p).
Definition with_parse_success (v : bool) (p : CodeParser AST) :=
  mkCodeParser AST (filenmae p) (source_code p) (ast_trees p)
               (syntax_errors p) v (parsing_time p).
Definition with_parsing_time (v : Q) (p : CodeParser AST) :=
  mkCodeParser AST (filenmae p) (source_code p) (ast_trees p)
               (syntax_errors p) (parse_success p) v.

(** The list display [[]]: a new list object. *)
Definition new_list : M loc :=
  λ m, let l := fresh (dom (heap m)) in
       (Returns l,
        mkMachine AST (self m) (<[l := []]> (heap m))
                  (clock_reads m) (parser_calls m)).

(** The contents of a list object. *)
Definition deref (m : Machine AST) (l : loc) : list Diagnostic :=
  default [] (heap m !! l).

(** [lst.append(d)]: the object is changed in place. *)
Definition list_append (l : loc) (d : Diagnostic) : M unit :=
  λ m, (Returns tt,
        mkMachine AST (self m) (alter (λ ds, ds ++ [d]) l (heap m))
                  (clock_reads m) (parser_calls m)).

(** [len(lst)] *)
Definition list_len (l : loc) : M nat :=
  λ m, (Returns (length (deref m l)), m).

(** [time.time()] *)
Definition time_time : M Q :=
  λ m, (Returns (clock (clock_reads m)),
        mkMachine AST (self m) (heap m) (S (clock_reads m)) (parser_calls m)).

(** [ast.parse(code)] *)
Definition ast_parse_call (code : PyValue) : M AST :=
  λ m, (ast_parse code,
        mkMachine AST (self m) (heap m) (clock_reads m)
                  (code :: parser_calls m)).

(** *** The methods *)

(** [CodeParser(filename)]: the instance [__init__] leaves, in the heap
    [h]. *)
Definition __init__ (filename : option str) (h : gmap loc (list Diagnostic))
    (reads : nat) (calls : list PyValue) : Machine AST :=
  let l := fresh (dom h) in
  mkMachine AST
    (mkCodeParser AST filename PyNone None l false 0%Q)
    (<[l := []]> h) reads calls.

Definition _reset_state : M unit :=
  update (with_ast_trees None) ;;
  l ← new_list;
  update (with_syntax_errors l) ;;
  update (with_parse_success false) ;;
  update (with_parsing_time 0%Q).

(** The dictionary both branches of [_validate_input] append. *)
Definition input_error : Diagnostic :=
  {| type := str_of "InputError";
     line := None;
     column := None;
     message := str_of "Source code must be a string";
     severity := str_of "error";
     stage := str_of "syntax" |}.

Definition _validate_input (code : PyValue) : M bool :=
  if negb (isinstance_str code) then
    l ← get syntax_errors;
    list_append l input_error ;;
    ret false
  else
    match code with
    | PyStr s =>
        match strip s with
        | [] =>
            l ← get syntax_errors;
            list_append l input_error ;;
            ret false
        | _ :: _ => ret true
        end
    | _ => ret true (* not reached: only a [str] passes the first test *)
    end.

(** The dictionary [_format_syntax_errors] builds. *)
Definition syntax_error_entry (exc : SyntaxErrorObj) : Diagnostic :=
  {| type := str_of "ParseError";
     line := lineno exc;
     column := offset exc;
     message := msg exc;
     severity := str_of "error";
     stage := str_of "syntax" |}.

Definition _format_syntax_errors (exc : SyntaxErrorObj) : M Diagnostic :=
  ret (syntax_error_entry exc).

(** The dictionary of the [except Exception] clause; [description] is
    [str(e)]. *)
Definition unexpected_error (description : str) : Diagnostic :=
  {| type := str_of "ParseError";
     line := None;
     column := None;
     message := description;
     severity := str_of "error";
     stage := str_of "syntax" |}.

Definition _safe_parse (code : PyValue) : M unit :=
  try_except
    (t ← ast_parse_call code;
     update (with_ast_trees (Some t)) ;;
     update (with_parse_success true))
    (λ e,
      match e with
      | ExcSyntaxError exc =>
          update (with_parse_success false) ;;
          l ← get syntax_errors;
          d ← _format_syntax_errors exc;
          list_append l d
      | ExcOther description =>
          update (with_parse_success false) ;;
          l ← get syntax_errors;
          list_append l (unexpected_error description)
      end).

Definition _build_result : M (ParseResult.t AST) :=
  s ← get parse_success;
  t ← get ast_trees;
  l ← get syntax_errors;
  e ← get parsing_time;
  ret (ParseResult.mk AST s t l e).

Definition parse (code : PyValue) : M (ParseResult.t AST) :=
  _reset_state ;;
  update (with_source_code code) ;;
  start_time ← time_time;
  ok ← _validate_input code;
  if negb ok then
    now ← time_time;
    update (with_parsing_time (now - start_time)%Q) ;;
    _build_result
  else
    _safe_parse code ;;
    now ← time_time;
    update (with_parsing_time (now - start_time)%Q) ;;
    _build_result.

Definition has_syntax_errors : M bool :=
  l ← get syntax_errors;
  n ← list_len l;
  ret (0 <? n).

Definition get_ast : M (option AST) :=
  s ← get parse_success;
  if s : bool then get ast_trees else ret (None : option AST).

Definition get_errors : M loc := get syntax_errors.

(** *** [_validate_input] and [parse] on objects

    The same two methods, read on every [PyObject]: [isinstance] and
    [strip] are those of the object, and what [strip] raises is raised by
    the method, since no [try] is around the call.  [ast.parse] reads the
    text of the object; the attribute [source_code], which holds the
    object itself, is shown as the built-in value it counts as. *)

(** [code.strip()] *)
Definition strip_call (code : PyObject) : M PyValue :=
  λ m, (strip_outcome code, m).

Definition _validate_input_object (code : PyObject) : M bool :=
  if negb (isinstance_str_object code) then
    l ← get syntax_errors;
    list_append l input_error ;;
    ret false
  else
    stripped ← strip_call code;
    if is_empty_str stripped then
      l ← get syntax_errors;
      list_append l input_error ;;
      ret false
    else ret true.

Definition parse_object (code : PyObject) : M (ParseResult.t AST) :=
  _reset_state ;;
  update (with_source_code (plain code)) ;;
  start_time ← time_time;
  ok ← _validate_input_object code;
  if negb ok then
    now ← time_time;
    update (with_parsing_time (now - start_time)%Q) ;;
    _build_result
  else
    _safe_parse (plain code) ;;
    now ← time_time;
    update (with_parsing_time (now - start_time)%Q) ;;
    _build_result.

(** ** One call, in closed form *)

(** [_validate_input] returns [True]. *)
Definition accepts (code : PyValue) : bool :=
  match code with
  | PyStr s => match strip s with [] => false | _ :: _ => true end
  | _ => false
  end.

(** The flag, the tree and the entries a call on [code] ends with. *)
Definition findings (code : PyValue) : bool * option AST * list Diagnostic :=
  if accepts code then
    match ast_parse code with
    | Returns t => (true, Some t, [])
    | Raises (ExcSyntaxError exc) => (false, None, [syntax_error_entry exc])
    | Raises (ExcOther description) =>
        (false, None, [unexpected_error description])
    end
  else (false, None, [input_error]).

(** [_validate_input_object] returns [True]. *)
Definition accepts_object (code : PyObject) : bool :=
  isinstance_str_object code
  && match strip_outcome code with
     | Returns v => negb (is_empty_str v)
     | Raises _ => false
     end.

(** The flag, the tree and the entries a call on the object ends with,
    when it returns. *)
Definition findings_object (code : PyObject)
    : bool * option AST * list Diagnostic :=
  if accepts_object code then
    match ast_parse (plain code) with
    | Returns t => (true, Some t, [])
    | Raises (ExcSyntaxError exc) => (false, None, [syntax_error_entry exc])
    | Raises (ExcOther description) =>
        (false, None, [unexpected_error description])
    end
  else (false, None, [input_error]).

Ltac run :=
  unfold parse, _reset_state, _validate_input, _safe_parse, _build_result,
    _format_syntax_errors, has_syntax_errors, get_ast, get_errors,
    try_except, ast_parse_call, time_time, new_list, list_append, list_len,
    get, update, mbind, mret, M_bind, M_ret, bind, ret;
  cbn -[fresh dom insert alter lookup].

(** Running [c ≫= k] when [c] returns. *)
Lemma run_bind {A B} (c : M A) (k : A → M B) (m m' : Machine AST) (a : A) :
  c m = (Returns a, m') → (c ≫= k) m = k a m'.
Proof. intros E. unfold mbind, M_bind, bind. rewrite E. reflexivity. Qed.

(** The state is kept in normal form after every step. *)
Ltac tidy :=
  cbn [self heap clock_reads parser_calls
       filenmae source_code ast_trees syntax_errors parse_success parsing_time
       with_source_code with_ast_trees with_syntax_errors with_parse_success
       with_parsing_time fst snd].
Ltac step lem := erewrite run_bind by apply lem; tidy.
Ltac step_prim := erewrite run_bind by reflexivity; tidy.

Lemma _reset_state_run (m : Machine AST) :
  _reset_state m =
    (Returns tt,
     mkMachine AST
       (mkCodeParser AST (filenmae (self m)) (source_code (self m)) None
                     (fresh (dom (heap m))) false 0%Q)
       (<[fresh (dom (heap m)) := []]> (heap m))
       (clock_reads m) (parser_calls m)).
Proof. reflexivity. Qed.

Lemma _validate_input_run (code : PyValue) (m : Machine AST) :
  _validate_input code m =
    (Returns (accepts code),
     if accepts code then m
     else mkMachine AST (self m)
            (alter (λ ds, ds ++ [input_error]) (syntax_errors (self m))
                   (heap m))
            (clock_reads m) (parser_calls m)).
Proof.
  destruct m as [p h n calls].
  destruct code as [s | | | |]; try reflexivity.
  unfold _validate_input, accepts; cbn [isinstance_str negb].
  destruct (strip s); reflexivity.
Qed.

Lemma _safe_parse_run (code : PyValue) (m : Machine AST) :
  _safe_parse code m =
    (Returns tt,
     match ast_parse code with
     | Returns t =>
         mkMachine AST (with_parse_success true (with_ast_trees (Some t) (self m)))
                   (heap m) (clock_reads m) (code :: parser_calls m)
     | Raises (ExcSyntaxError exc) =>
         mkMachine AST (with_parse_success false (self m))
                   (alter (λ ds, ds ++ [syntax_error_entry exc])
                          (syntax_errors (self m)) (heap m))
                   (clock_reads m) (code :: parser_calls m)
     | Raises (ExcOther description) =>
         mkMachine AST (with_parse_success false (self m))
                   (alter (λ ds, ds ++ [unexpected_error description])
                          (syntax_errors (self m)) (heap m))
                   (clock_reads m) (code :: parser_calls m)
     end).
Proof.
  run. destruct (ast_parse code) as [t | [exc | description]]; reflexivity.
Qed.

Lemma _build_result_run (m : Machine AST) :
  _build_result m =
    (Returns (ParseResult.mk AST (parse_success (self m)) (ast_trees (self m))
                             (syntax_errors (self m)) (parsing_time (self m))),
     m).
Proof. reflexivity. Qed.

Lemma parse_run (code : PyValue) (m : Machine AST) :
  let l := fresh (dom (heap m)) in
  let dt := (clock (S (clock_reads m)) - clock (clock_reads m))%Q in
  parse code m =
    (Returns (ParseResult.mk AST (findings code).1.1 (findings code).1.2 l dt),
     mkMachine AST
       (mkCodeParser AST (filenmae (self m)) code (findings code).1.2 l
                     (findings code).1.1 dt)
       (<[l := (findings code).2]> (heap m))
       (S (S (clock_reads m)))
       (if accepts code then code :: parser_calls m else parser_calls m)).
Proof.
  cbv zeta. unfold parse.
  step _reset_state_run. step_prim. step_prim. step _validate_input_run.
  unfold findings.
  destruct (accepts code); cbn [negb].
  - step _safe_parse_run.
    destruct (ast_parse code) as [t | [exc | description]];
      step_prim; step_prim; rewrite _build_result_run; tidy;
      rewrite ?alter_insert_eq; reflexivity.
  - step_prim. step_prim. rewrite _build_result_run. tidy.
    rewrite alter_insert_eq. reflexivity.
Qed.

(** The entries of the result are read through the reference it holds. *)
Lemma deref_insert (m : Machine AST) (h : gmap loc (list Diagnostic))
    (l : loc) (ds : list Diagnostic) :
  heap m = <[l := ds]> h → deref m l = ds.
Proof. intros E. unfold deref. rewrite E, lookup_insert_eq. reflexivity. Qed.

Lemma findings_accepted (code : PyValue) :
  accepts code = true →
  findings code =
    match ast_parse code with
    | Returns t => (true, Some t, [])
    | Raises (ExcSyntaxError exc) => (false, None, [syntax_error_entry exc])
    | Raises (ExcOther description) =>
        (false, None, [unexpected_error description])
    end.
Proof. intros E. unfold findings. rewrite E. reflexivity. Qed.

Lemma findings_rejected (code : PyValue) :
  accepts code = false → findings code = (false, None, [input_error]).
Proof. intros E. unfold findings. rewrite E. reflexivity. Qed.

Lemma accepts_false (code : PyValue) :
  isinstance_str code = false ∨ (∃ s, code = PyStr s ∧ strip s = []) →
  accepts code = false.
Proof.
  intros [E | (s & -> & E)].
  - destruct code; [discriminate E | reflexivity ..].
  - cbn. rewrite E. reflexivity.
Qed.

Lemma accepts_true (s : str) : strip s ≠ [] → accepts (PyStr s) = true.
Proof. cbn. destruct (strip s); [congruence | reflexivity]. Qed.

(** The three shapes of [findings]. *)
Lemma findings_cases (code : PyValue) :
  (∃ t, findings code = (true, Some t, []))
  ∨ (∃ d, findings code = (false, None, [d])
          ∧ ((line d = None ∧ column d = None)
             ∨ ∃ exc, ast_parse code = Raises (ExcSyntaxError exc)
                      ∧ line d = lineno exc ∧ column d = offset exc)).
Proof.
  unfold findings. destruct (accepts code).
  - destruct (ast_parse code) as [t | [exc | description]].
    + left. eauto.
    + right. eexists. split; [reflexivity |]. right. eauto.
    + right. eexists. split; [reflexivity |]. left. auto.
  - right. eexists. split; [reflexivity |]. left. auto.
Qed.

Ltac by_parse_run code m :=
  let E := fresh "E" in
  pose proof (parse_run code m) as E; cbv zeta in E;
  eexists _, _; split; [exact E |]; cbn;
  try (erewrite deref_insert by reflexivity).

(** ** The claims *)

Lemma _validate_input_object_run (code : PyObject) (m : Machine AST) :
  isinstance_str_object code = false ∨ (∃ v, strip_outcome code = Returns v) →
  _validate_input_object code m =
    (Returns (accepts_object code),
     if accepts_object code then m
     else mkMachine AST (self m)
            (alter (λ ds, ds ++ [input_error]) (syntax_errors (self m))
                   (heap m))
            (clock_reads m) (parser_calls m)).
Proof.
  destruct m as [p h n calls].
  unfold _validate_input_object, accepts_object, strip_call.
  destruct (isinstance_str_object code); cbn [negb andb].
  - intros [F | (v & S)]; [discriminate F |].
    unfold mbind, M_bind, bind. rewrite S.
    destruct (is_empty_str v); reflexivity.
  - intros _. reflexivity.
Qed.


Lemma parse_object_run (code : PyObject) (m : Machine AST) :
  isinstance_str_object code = false ∨ (∃ v, strip_outcome code = Returns v) →
  parse_object code m =
    (Returns (ParseResult.mk AST (findings_object code).1.1
                             (findings_object code).1.2
                             (fresh (dom (heap m)))
                             (clock (S (clock_reads m))
                              - clock (clock_reads m))%Q),
     mkMachine AST
       (mkCodeParser AST (filenmae (self m)) (plain code)
                     (findings_object code).1.2 (fresh (dom (heap m)))
                     (findings_object code).1.1
                     (clock (S (clock_reads m)) - clock (clock_reads m))%Q)
       (<[fresh (dom (heap m)) := (findings_object code).2]> (heap m))
       (S (S (clock_reads m)))
       (if accepts_object code then plain code :: parser_calls m
        else parser_calls m)).
Proof.
  intros H. unfold parse_object.
  step _reset_state_run. step_prim. step_prim.
  erewrite run_bind by (apply _validate_input_object_run; exact H). tidy.
  unfold findings_object.
  destruct (accepts_object code); cbn [negb].
  - step _safe_parse_run.
    destruct (ast_parse (plain code)) as [t | [exc | description]];
      step_prim; step_prim; rewrite _build_result_run; tidy;
      rewrite ?alter_insert_eq; reflexivity.
  - step_prim. step_prim. rewrite _build_result_run. tidy.
    rewrite alter_insert_eq. reflexivity.
Qed.

Lemma accepts_object_builtin (v : PyValue) :
  accepts_object (Builtin v) = accepts v.
Proof.
  destruct v as [s | | | |]; try reflexivity.
  unfold accepts_object; cbn. destruct (strip s); reflexivity.
Qed.

(** On a built-in value [parse_object] is [parse]. *)
Lemma parse_object_builtin (v : PyValue) (m : Machine AST) :
  parse_object (Builtin v) m = parse v m.
Proof.
  pose proof (parse_run v m) as E; cbv zeta in E. rewrite E.
  rewrite parse_object_run.
  - unfold findings_object, findings. rewrite accepts_object_builtin.
    reflexivity.
  - destruct v as [s | | | |]; cbn; eauto.
Qed.


(** C2: the result of [parse] is of one of two kinds, never both:
    [success] true with no entry and a tree, or [success] false with at
    least one entry and no tree. *)
Theorem parse_outcome_invariant (code : PyValue) (m : Machine AST) :
  ∃ r m', parse code m = (Returns r, m')
    ∧ (ParseResult.success r = true →
       deref m' (ParseResult.syntax_errors r) = []
       ∧ is_Some (ParseResult.ast_tree r))
    ∧ (ParseResult.success r = false →
       deref m' (ParseResult.syntax_errors r) ≠ []
       ∧ ParseResult.ast_tree r = None)
    ∧ (ParseResult.success r = true ∨ ParseResult.success r = false).
Proof.
  by_parse_run code m.
  destruct (findings_cases code) as [(t & F) | (d & F & _)]; rewrite F; cbn.
  - split; [eauto | split; [discriminate | auto]].
  - split; [discriminate | split; [split; [discriminate | reflexivity] | auto]].
Qed.

(** C3: a value that is no [str], and a [str] that [strip()] empties, is
    answered by [success] false, no tree and the single entry
    [InputError] without line and column; [ast.parse] is not called. *)
Theorem parse_rejects_bad_input (code : PyValue) (m : Machine AST) :
  isinstance_str code = false ∨ (∃ s, code = PyStr s ∧ strip s = []) →
  ∃ r m', parse code m = (Returns r, m')
    ∧ ParseResult.success r = false
    ∧ ParseResult.ast_tree r = None
    ∧ (∃ d, deref m' (ParseResult.syntax_errors r) = [d]
            ∧ type d = str_of "InputError"
            ∧ line d = None ∧ column d = None)
    ∧ parser_calls m' = parser_calls m.
Proof.
  intros H. apply accepts_false in H.
  by_parse_run code m.
  rewrite (findings_rejected code H), H. cbn.
  repeat split. exists input_error. repeat split.
Qed.

(** C4: when [ast.parse] raises a [SyntaxError] that carries line, column
    and message, [_safe_parse] sets the flag to false and appends one
    entry [ParseError] with that line, that column and that message; the
    result of [parse], which calls [ast.parse] on the inputs it accepts,
    then has [success] false and this entry alone. *)
Theorem syntax_error_is_reported
    (s : str) (exc : SyntaxErrorObj) (ln col : Z) :
  ast_parse (PyStr s) = Raises (ExcSyntaxError exc) →
  lineno exc = Some ln →
  offset exc = Some col →
  let d := {| type := str_of "ParseError";
              line := Some ln;
              column := Some col;
              message := msg exc;
              severity := str_of "error";
              stage := str_of "syntax" |} in
  (∀ m : Machine AST,
     is_Some (heap m !! syntax_errors (self m)) →
     ∃ m', _safe_parse (PyStr s) m = (Returns tt, m')
       ∧ parse_success (self m') = false
       ∧ syntax_errors (self m') = syntax_errors (self m)
       ∧ deref m' (syntax_errors (self m'))
         = deref m (syntax_errors (self m)) ++ [d])
  ∧ (strip s ≠ [] →
     ∀ m : Machine AST,
     ∃ r m', parse (PyStr s) m = (Returns r, m')
       ∧ ParseResult.success r = false
       ∧ deref m' (ParseResult.syntax_errors r) = [d]).
Proof.
  intros P Hl Hc d.
  assert (D : syntax_error_entry exc = d).
  { unfold syntax_error_entry, d. rewrite Hl, Hc. reflexivity. }
  split.
  - intros m [ds L]. rewrite _safe_parse_run, P.
    eexists. split; [reflexivity |]. cbn.
    repeat split. unfold deref; cbn.
    rewrite lookup_alter_eq, L, D. reflexivity.
  - intros V m. apply accepts_true in V.
    by_parse_run (PyStr s) m.
    rewrite (findings_accepted _ V), P, D. cbn. auto.
Qed.

(** C5: when [ast.parse] raises something that is no [SyntaxError],
    [_safe_parse] sets the flag to false and appends one entry
    [ParseError] without line and column whose message is [str(e)]; the
    result of [parse], which calls [ast.parse] on the inputs it accepts,
    then has [success] false and this entry alone. *)
Theorem unexpected_failure_is_reported (s : str) (description : str) :
  ast_parse (PyStr s) = Raises (ExcOther description) →
  let d := {| type := str_of "ParseError";
              line := None;
              column := None;
              message := description;
              severity := str_of "error";
              stage := str_of "syntax" |} in
  (∀ m : Machine AST,
     is_Some (heap m !! syntax_errors (self m)) →
     ∃ m', _safe_parse (PyStr s) m = (Returns tt, m')
       ∧ parse_success (self m') = false
       ∧ syntax_errors (self m') = syntax_errors (self m)
       ∧ deref m' (syntax_errors (self m'))
         = deref m (syntax_errors (self m)) ++ [d])
  ∧ (strip s ≠ [] →
     ∀ m : Machine AST,
     ∃ r m', parse (PyStr s) m = (Returns r, m')
       ∧ ParseResult.success r = false
       ∧ deref m' (ParseResult.syntax_errors r) = [d]).
Proof.
  intros P d. split.
  - intros m [ds L]. rewrite _safe_parse_run, P.
    eexists. split; [reflexivity |]. cbn.
    repeat split. unfold deref; cbn.
    rewrite lookup_alter_eq, L. reflexivity.
  - intros V m. apply accepts_true in V.
    by_parse_run (PyStr s) m.
    rewrite (findings_accepted _ V), P. cbn. auto.
Qed.

(** C6, as the code has it: [_format_syntax_errors] copies [lineno] to
    [line] and [offset] to [column], each as it is.  So the one entry that
    [parse] makes from a [SyntaxError] has line and column both present or
    both absent exactly when that holds of the [SyntaxError]; every other
    entry has neither. *)
Theorem entries_pair_line_and_column (code : PyValue) (m : Machine AST) :
  (∀ (exc : SyntaxErrorObj) (m0 : Machine AST),
     ∃ d, _format_syntax_errors exc m0 = (Returns d, m0)
          ∧ line d = lineno exc ∧ column d = offset exc)
  ∧ ∃ r m', parse code m = (Returns r, m')
      ∧ (∀ s exc,
           code = PyStr s → strip s ≠ [] →
           ast_parse code = Raises (ExcSyntaxError exc) →
           ∃ d, deref m' (ParseResult.syntax_errors r) = [d]
                ∧ line d = lineno exc ∧ column d = offset exc
                ∧ ((is_Some (line d) ↔ is_Some (column d))
                   ↔ (is_Some (lineno exc) ↔ is_Some (offset exc))))
      ∧ (isinstance_str code = false
         ∨ (∃ s, code = PyStr s ∧ strip s = [])
         ∨ (∀ exc, ast_parse code ≠ Raises (ExcSyntaxError exc)) →
         ∀ d, d ∈ deref m' (ParseResult.syntax_errors r) →
              line d = None ∧ column d = None).
Proof.
  split.
  - intros exc m0. eexists. split; [reflexivity |]. split; reflexivity.
  - by_parse_run code m. split.
    + intros s exc -> V P. apply accepts_true in V.
      rewrite (findings_accepted _ V), P. cbn.
      eexists. split; [reflexivity |]. cbn.
      split; [reflexivity |]. split; [reflexivity |]. tauto.
    + intros H d In_d.
      destruct (accepts code) eqn:A.
      * rewrite (findings_accepted code A) in In_d.
        destruct H as [H | [H | H]];
          try (rewrite accepts_false in A by auto; discriminate A).
        destruct (ast_parse code) as [t | [exc | description]];
          cbn in In_d.
        -- apply elem_of_nil in In_d. contradiction.
        -- exfalso. exact (H exc eq_refl).
        -- apply list_elem_of_singleton in In_d. subst d. auto.
      * rewrite (findings_rejected code A) in In_d. cbn in In_d.
        apply list_elem_of_singleton in In_d. subst d. auto.
Qed.

(** C7: right after [parse], [has_syntax_errors] answers true exactly
    when the result has an entry, and [get_ast] answers a tree exactly
    when [success] is true; neither of them changes the state, whatever
    state it is called in. *)
Theorem queries_after_parse (code : PyValue) (m : Machine AST) :
  ∃ r m', parse code m = (Returns r, m')
    ∧ (∃ b, has_syntax_errors m' = (Returns b, m')
            ∧ (b = true ↔ deref m' (ParseResult.syntax_errors r) ≠ []))
    ∧ (∃ t, get_ast m' = (Returns t, m')
            ∧ (is_Some t ↔ ParseResult.success r = true))
    ∧ (∀ m0 : Machine AST,
         (∃ b, has_syntax_errors m0 = (Returns b, m0))
         ∧ (∃ t, get_ast m0 = (Returns t, m0))).
Proof.
  pose proof (parse_run code m) as E; cbv zeta in E.
  eexists _, _; split; [exact E |].
  split; [| split].
  - run. eexists. split; [reflexivity |].
    erewrite deref_insert by reflexivity.
    destruct (findings code).2; cbn; split; congruence.
  - run.
    destruct (findings_cases code) as [(t & F) | (d & F & _)]; rewrite F; cbn;
      eexists; (split; [reflexivity |]).
    + split; eauto.
    + split; [intros [? ?]; discriminate | discriminate].
  - intros m0. split; run; [eauto |].
    destruct (parse_success (self m0)); eauto.
Qed.

(** C8: two calls in a row on the same input and the same instance give
    the same [success], the same tree and the same entries; the list of
    the first result is not the list of the second, and the second call
    leaves it as it was. *)
Theorem parse_twice (code : PyValue) (m : Machine AST) :
  ∃ r1 m1 r2 m2,
    parse code m = (Returns r1, m1)
    ∧ parse code m1 = (Returns r2, m2)
    ∧ ParseResult.success r1 = ParseResult.success r2
    ∧ ParseResult.ast_tree r1 = ParseResult.ast_tree r2
    ∧ deref m2 (ParseResult.syntax_errors r1)
      = deref m2 (ParseResult.syntax_errors r2)
    ∧ deref m2 (ParseResult.syntax_errors r1)
      = deref m1 (ParseResult.syntax_errors r1).
Proof.
  pose proof (parse_run code m) as E1; cbv zeta in E1.
  eexists _, _. 
  match type of E1 with _ = (_, ?m1) =>
    pose proof (parse_run code m1) as E2; cbv zeta in E2
  end.
  eexists _, _.
  split; [exact E1 |]. split; [exact E2 |]. cbn.
  set (l1 := fresh (dom (heap m))).
  set (l2 := fresh (dom (<[l1 := (findings code).2]> (heap m)))).
  assert (N : l2 ≠ l1).
  { intros Eq. apply (is_fresh (dom (<[l1 := (findings code).2]> (heap m)))).
    fold l2. rewrite Eq, dom_insert_L.
    apply elem_of_union_l, elem_of_singleton. reflexivity. }
  unfold deref; cbn.
  rewrite lookup_insert_eq, lookup_insert_ne, lookup_insert_eq by exact N.
  auto.
Qed.

Lemma Qminus_negative (a b : Q) : (a - b < 0 ↔ a < b)%Q.
Proof.
  rewrite (Qlt_minus_iff (a - b) 0), (Qlt_minus_iff a b).
  assert (E : (0 + - (a - b) == b + - a)%Q) by ring.
  rewrite E. reflexivity.
Qed.

(** C9, as the code has it: on every path the call reads [time.time()]
    twice, and [parsing_time] has the sign of the second reading less the
    first: it is not negative exactly when the second reading is not below
    the first, and negative exactly when the clock was set back between
    the two.  (The readings are floats; the float difference and the exact
    one have the same sign.) *)
Theorem elapsed_is_clock_difference (code : PyValue) (m : Machine AST) :
  ∃ r m', parse code m = (Returns r, m')
    ∧ clock_reads m' = S (S (clock_reads m))
    ∧ ((0 <= ParseResult.parsing_time r)%Q
       ↔ (clock (clock_reads m) <= clock (S (clock_reads m)))%Q)
    ∧ ((ParseResult.parsing_time r < 0)%Q
       ↔ (clock (S (clock_reads m)) < clock (clock_reads m))%Q).
Proof.
  by_parse_run code m.
  split; [reflexivity |]. split.
  - symmetry. apply Qle_minus_iff.
  - apply Qminus_negative.
Qed.

(** C10: two instances made with different [filename]s, in whatever heap
    each of them lives, answer the same input with the same [success],
    tree and entries, and their accessors agree after the call; in the
    same heap and at the same clock reading the two runs differ in
    nothing but the attribute [filenmae]. *)
Theorem filename_is_ignored
    (f1 f2 : option str) (h1 h2 : gmap loc (list Diagnostic))
    (n1 n2 : nat) (c1 c2 : list PyValue) (code : PyValue) :
  (∃ r1 m1 r2 m2,
      parse code (__init__ f1 h1 n1 c1) = (Returns r1, m1)
      ∧ parse code (__init__ f2 h2 n2 c2) = (Returns r2, m2)
      ∧ ParseResult.success r1 = ParseResult.success r2
      ∧ ParseResult.ast_tree r1 = ParseResult.ast_tree r2
      ∧ deref m1 (ParseResult.syntax_errors r1)
        = deref m2 (ParseResult.syntax_errors r2)
      ∧ (has_syntax_errors m1).1 = (has_syntax_errors m2).1
      ∧ (get_ast m1).1 = (get_ast m2).1
      ∧ (∃ l1 l2, get_errors m1 = (Returns l1, m1)
                  ∧ get_errors m2 = (Returns l2, m2)
                  ∧ deref m1 l1 = deref m2 l2))
  ∧ (∃ r m1 m2,
      parse code (__init__ f1 h1 n1 c1) = (Returns r, m1)
      ∧ parse code (__init__ f2 h1 n1 c1) = (Returns r, m2)
      ∧ m2 = mkMachine AST (with_filenmae f2 (self m1)) (heap m1)
                       (clock_reads m1) (parser_calls m1)).
Proof.
  split.
  - pose proof (parse_run code (__init__ f1 h1 n1 c1)) as E1; cbv zeta in E1.
    pose proof (parse_run code (__init__ f2 h2 n2 c2)) as E2; cbv zeta in E2.
    eexists _, _, _, _.
    split; [exact E1 |]. split; [exact E2 |]. cbn.
    split; [reflexivity |]. split; [reflexivity |].
    unfold deref at 1 2; cbn. rewrite !lookup_insert_eq.
    split; [reflexivity |].
    split; [| split].
    + run. unfold deref; cbn. rewrite !lookup_insert_eq. reflexivity.
    + run. destruct (findings code).1.1; reflexivity.
    + run. eexists _, _. split; [reflexivity |]. split; [reflexivity |].
      unfold deref; cbn. rewrite !lookup_insert_eq. reflexivity.
  - pose proof (parse_run code (__init__ f1 h1 n1 c1)) as E1; cbv zeta in E1.
    pose proof (parse_run code (__init__ f2 h1 n1 c1)) as E2; cbv zeta in E2.
    eexists _, _, _.
    split; [exact E1 |]. split; [exact E2 |]. reflexivity.
Qed.

End CodeParser.

(** ** [strip] *)

Lemma lstrip_nil (s : str) : lstrip s = [] ↔ forallb isspace s = true.
Proof.
  induction s as [| c s IH]; cbn; [tauto |].
  destruct (isspace c); cbn; [exact IH |].
  split; discriminate.
Qed.

Lemma lstrip_head (s : str) (c : N) (t : str) :
  lstrip s = c :: t → isspace c = false.
Proof.
  induction s as [| c' s IH]; cbn; [discriminate |].
  destruct (isspace c') eqn:E; [exact IH |].
  intros [= -> _]. exact E.
Qed.

(** [strip] empties exactly the strings made of white space only. *)
Lemma strip_nil (s : str) : strip s = [] ↔ forallb isspace s = true.
Proof.
  unfold strip, rstrip. split.
  - intros E. apply lstrip_nil.
    destruct (lstrip s) as [| c t] eqn:L; [reflexivity |].
    apply (f_equal (@rev N)) in E. rewrite rev_involutive in E. cbn [rev] in E.
    apply lstrip_nil in E.
    rewrite forallb_forall in E.
    assert (I : In c (rev (c :: t))) by (apply -> in_rev; left; reflexivity).
    apply E in I. rewrite (lstrip_head s c t L) in I. discriminate I.
  - intros E. apply lstrip_nil in E. rewrite E. reflexivity.
Qed.

(** ** The methods on the sample environments *)

(** A new instance in an empty heap. *)
Example scenario_A :
  ∃ r m', parse sample_parse steady_clock (PyStr (str_of "x = 1 + 2"))
                (__init__ None ∅ 0 []) = (Returns r, m')
    ∧ ParseResult.success r = true
    ∧ deref m' (ParseResult.syntax_errors r) = []
    ∧ ParseResult.ast_tree r = Some (str_of "x = 1 + 2").
Proof.
  eexists _, _. split; [vm_compute; reflexivity |].
  vm_compute. repeat split.
Qed.

Example scenario_B :
  ∃ r m' d, parse sample_parse steady_clock (PyStr (str_of "def f(:"))
                  (__init__ None ∅ 0 []) = (Returns r, m')
    ∧ ParseResult.success r = false
    ∧ deref m' (ParseResult.syntax_errors r) = [d]
    ∧ type d = str_of "ParseError" ∧ line d = Some 1%Z.
Proof.
  eexists _, _, _. split; [vm_compute; reflexivity |].
  vm_compute. repeat split.
Qed.

Example scenario_C :
  ∃ r m' d, parse sample_parse steady_clock (PyStr [])
                  (__init__ None ∅ 0 []) = (Returns r, m')
    ∧ ParseResult.success r = false
    ∧ deref m' (ParseResult.syntax_errors r) = [d]
    ∧ type d = str_of "InputError" ∧ line d = None.
Proof.
  eexists _, _, _. split; [vm_compute; reflexivity |].
  vm_compute. repeat split.
Qed.

Example scenario_D :
  ∃ r m' d, parse sample_parse steady_clock (PyInt 42)
                  (__init__ None ∅ 0 []) = (Returns r, m')
    ∧ ParseResult.success r = false
    ∧ deref m' (ParseResult.syntax_errors r) = [d]
    ∧ type d = str_of "InputError" ∧ line d = None.
Proof.
  eexists _, _, _. split; [vm_compute; reflexivity |].
  vm_compute. repeat split.
Qed.

Example scenario_whitespace_only :
  strip [32; 9; 10; 160; 8195]%N = [].
Proof. reflexivity. Qed.

(** C3 at the number 42. *)
Lemma parse_rejects_bad_input_witness :
  ∃ r m', parse sample_parse steady_clock (PyInt 42)
                (__init__ None ∅ 0 []) = (Returns r, m')
    ∧ ParseResult.success r = false
    ∧ ParseResult.ast_tree r = None
    ∧ (∃ d, deref m' (ParseResult.syntax_errors r) = [d]
            ∧ type d = str_of "InputError"
            ∧ line d = None ∧ column d = None)
    ∧ parser_calls m' = parser_calls (__init__ (AST := str) None ∅ 0 []).
Proof.
  apply (parse_rejects_bad_input sample_parse steady_clock (PyInt 42)
           (__init__ None ∅ 0 [])).
  left. reflexivity.
Defined.

(** C4 at the text ["("], on which [sample_parse] raises a [SyntaxError]
    at line 1, column 1. *)
Lemma syntax_error_is_reported_witness :
  let d := {| type := str_of "ParseError";
              line := Some 1%Z;
              column := Some 1%Z;
              message := str_of "'(' was never closed";
              severity := str_of "error";
              stage := str_of "syntax" |} in
  (∀ m : Machine str,
     is_Some (heap m !! syntax_errors (self m)) →
     ∃ m', _safe_parse sample_parse (PyStr (str_of "(")) m = (Returns tt, m')
       ∧ parse_success (self m') = false
       ∧ syntax_errors (self m') = syntax_errors (self m)
       ∧ deref m' (syntax_errors (self m'))
         = deref m (syntax_errors (self m)) ++ [d])
  ∧ (strip (str_of "(") ≠ [] →
     ∀ m : Machine str,
     ∃ r m', parse sample_parse steady_clock (PyStr (str_of "(")) m
             = (Returns r, m')
       ∧ ParseResult.success r = false
       ∧ deref m' (ParseResult.syntax_errors r) = [d]).
Proof.
  apply (syntax_error_is_reported sample_parse steady_clock (str_of "(")
           (mkSyntaxError (Some 1%Z) (Some 1%Z) (str_of "'(' was never closed"))
           1%Z 1%Z); reflexivity.
Defined.

(** C5 at a text with a null character, on which [sample_parse] raises a
    [ValueError]. *)
Lemma unexpected_failure_is_reported_witness :
  let d := {| type := str_of "ParseError";
              line := None;
              column := None;
              message := str_of "source code string cannot contain null bytes";
              severity := str_of "error";
              stage := str_of "syntax" |} in
  (∀ m : Machine str,
     is_Some (heap m !! syntax_errors (self m)) →
     ∃ m', _safe_parse sample_parse (PyStr [120; 0]%N) m = (Returns tt, m')
       ∧ parse_success (self m') = false
       ∧ syntax_errors (self m') = syntax_errors (self m)
       ∧ deref m' (syntax_errors (self m'))
         = deref m (syntax_errors (self m)) ++ [d])
  ∧ (strip [120; 0]%N ≠ [] →
     ∀ m : Machine str,
     ∃ r m', parse sample_parse steady_clock (PyStr [120; 0]%N) m
             = (Returns r, m')
       ∧ ParseResult.success r = false
       ∧ deref m' (ParseResult.syntax_errors r) = [d]).
Proof.
  apply (unexpected_failure_is_reported sample_parse steady_clock [120; 0]%N
           (str_of "source code string cannot contain null bytes")).
  reflexivity.
Defined.


(** C1 as the code has it, at the text ["("]. *)
Example parse_returns_on_plain_str :
  ∃ r m', parse_object sample_parse steady_clock
            (Builtin (PyStr (str_of "("))) (__init__ None ∅ 0 [])
          = (Returns r, m')
    ∧ ParseResult.success r = false
    ∧ deref m' (ParseResult.syntax_errors r)
      = [ {| type := str_of "ParseError";
             line := Some 1%Z;
             column := Some 1%Z;
             message := str_of "'(' was never closed";
             severity := str_of "error";
             stage := str_of "syntax" |} ].
Proof.
  eexists _, _. split; [vm_compute; reflexivity |].
  vm_compute. split; reflexivity.
Qed.

(** C6 as stated fails: a [SyntaxError] with a line and no column, such as
    [SyntaxError("bad input", ("<unknown>", 1, None, None))], leaves
    [_format_syntax_errors] as an entry with a line and no column. *)
Lemma line_without_column :
  ∃ d, (∀ m : Machine str,
          _format_syntax_errors
            (mkSyntaxError (Some 1%Z) None (str_of "bad input")) m
          = (Returns d, m))
       ∧ line d = Some 1%Z
       ∧ column d = None
       ∧ ¬ (is_Some (line d) ↔ is_Some (column d)).
Proof.
  eexists. split; [reflexivity |].
  split; [reflexivity |]. split; [reflexivity |].
  cbn. intros [H _]. destruct (H (ex_intro _ 1%Z eq_refl)) as [c E].
  discriminate E.
Qed.

(** C6 as the code has it, at the text ["("]: the entry has the line and
    the column of the [SyntaxError] that [sample_parse] raises. *)
Example entries_pair_line_and_column_example :
  ∃ r m', parse sample_parse steady_clock (PyStr (str_of "("))
                (__init__ None ∅ 0 []) = (Returns r, m')
    ∧ ∃ d, deref m' (ParseResult.syntax_errors r) = [d]
           ∧ line d = Some 1%Z ∧ column d = Some 1%Z.
Proof.
  eexists _, _. split; [vm_compute; reflexivity |].
  eexists. split; [vm_compute; reflexivity |]. split; reflexivity.
Qed.

(** C9 as stated fails: when the clock is set back from 5 to 3 between the
    two readings, [parsing_time] is -2. *)
Lemma elapsed_negative :
  ∃ r m', parse sample_parse set_back_clock (PyStr (str_of "x = 1 + 2"))
                (__init__ None ∅ 0 []) = (Returns r, m')
    ∧ ParseResult.parsing_time r = (-2)%Q
    ∧ ¬ (0 <= ParseResult.parsing_time r)%Q.
Proof.
  eexists _, _. split; [vm_compute; reflexivity |]. split; [reflexivity |].
  cbn. intros H. apply Qle_bool_iff in H. discriminate H.
Qed.

(** C9 as the code has it, on the clock that advances. *)
Example elapsed_on_steady_clock :
  ∃ r m', parse sample_parse steady_clock (PyStr (str_of "x = 1 + 2"))
                (__init__ None ∅ 0 []) = (Returns r, m')
    ∧ (0 <= ParseResult.parsing_time r)%Q.
Proof.
  eexists _, _. split; [vm_compute; reflexivity |].
  apply Qle_bool_iff. reflexivity.
Qed.

(** ** More of the class

    What the methods do beyond the claims above: which inputs pass, what
    the parser is called with, what a call leaves in the instance and in
    the heap, and what the accessors return. *)

Lemma forallb_false_elem (s : str) :
  forallb isspace s ≠ true ↔ ∃ c, In c s ∧ isspace c = false.
Proof.
  induction s as [| c s IH]; cbn.
  - split; [congruence | intros (c & [] & _)].
  - destruct (isspace c) eqn:E; cbn.
    + rewrite IH. split.
      * intros (c' & I & F). eauto.
      * intros (c' & [-> | I] & F); [congruence | eauto].
    + split; [eauto | discriminate].
Qed.

(** [strip] leaves something exactly when the string has a code point that
    is no white space. *)
Lemma strip_not_nil (s : str) :
  strip s ≠ [] ↔ ∃ c, In c s ∧ isspace c = false.
Proof. rewrite strip_nil. apply forallb_false_elem. Qed.

Section Coverage.

Context {AST : Type}.
Variable ast_parse : PyValue → Outcome AST.
Variable clock : nat → Q.

Ltac query :=
  unfold has_syntax_errors, get_ast, get_errors, _build_result, list_len,
    list_append, get, mbind, mret, M_bind, M_ret, bind, ret;
  cbn -[fresh dom insert alter lookup].

Ltac by_run code m :=
  let E := fresh "E" in
  pose proof (parse_run ast_parse clock code m) as E; cbv zeta in E;
  eexists _, _; split; [exact E |];
  cbn -[fresh dom insert alter lookup].

Lemma accepts_iff (code : PyValue) :
  accepts code = true ↔ ∃ s, code = PyStr s ∧ ∃ c, In c s ∧ isspace c = false.
Proof.
  destruct code as [s | | | |]; cbn;
    try (split; [discriminate | intros (s' & [=] & _)]).
  split.
  - intros A. exists s. split; [reflexivity |]. apply strip_not_nil.
    destruct (strip s); [discriminate A | discriminate].
  - intros (s' & [= <-] & H). apply strip_not_nil in H.
    destruct (strip s); [congruence | reflexivity].
Qed.

(** X1: a [str] with something besides white space on which [ast.parse]
    returns a tree gives [success] true, that very tree, and no entry;
    afterwards [get_ast] returns the tree and [has_syntax_errors] false. *)
Theorem parsed_tree_is_returned (s : str) (t : AST) (m : Machine AST) :
  strip s ≠ [] →
  ast_parse (PyStr s) = Returns t →
  ∃ r m', parse ast_parse clock (PyStr s) m = (Returns r, m')
    ∧ ParseResult.success r = true
    ∧ ParseResult.ast_tree r = Some t
    ∧ deref m' (ParseResult.syntax_errors r) = []
    ∧ get_ast m' = (Returns (Some t), m')
    ∧ has_syntax_errors m' = (Returns false, m').
Proof.
  intros V P. apply accepts_true in V.
  by_run (PyStr s) m.
  rewrite (findings_accepted ast_parse _ V), P. cbn.
  repeat split.
  - unfold deref; cbn. rewrite lookup_insert_eq. reflexivity.
  - query. unfold deref; cbn. rewrite lookup_insert_eq. reflexivity.
Qed.

(** X2: [success] is true exactly when the input is a [str] with a code
    point that is no white space and [ast.parse] returns on it. *)
Theorem success_iff (code : PyValue) (m : Machine AST) :
  ∃ r m', parse ast_parse clock code m = (Returns r, m')
    ∧ (ParseResult.success r = true
       ↔ ∃ s t, code = PyStr s
                ∧ (∃ c, In c s ∧ isspace c = false)
                ∧ ast_parse code = Returns t).
Proof.
  by_run code m.
  destruct (accepts code) eqn:A.
  - rewrite (findings_accepted ast_parse _ A).
    apply accepts_iff in A. destruct A as (s & -> & Hc).
    destruct (ast_parse (PyStr s)) as [t | [exc | description]]; cbn.
    + split; [eauto 6 | reflexivity].
    + split; [discriminate | intros (s' & t & _ & _ & [=])].
    + split; [discriminate | intros (s' & t & _ & _ & [=])].
  - rewrite (findings_rejected ast_parse _ A). cbn.
    split; [discriminate |].
    intros (s & t & -> & Hc & _).
    assert (A' : accepts (PyStr s) = true) by (apply accepts_iff; eauto).
    congruence.
Qed.

(** X3: [_validate_input] returns [True] exactly for a [str] with a code
    point that is no white space, and then changes nothing; otherwise it
    returns [False], appends the one entry [input_error] to the instance's
    list, the same for a value that is no [str] and for a blank [str], and
    changes no attribute. *)
Theorem validate_input_spec (code : PyValue) (m : Machine AST) :
  ∃ b m', _validate_input code m = (Returns b, m')
    ∧ (b = true ↔ ∃ s, code = PyStr s ∧ ∃ c, In c s ∧ isspace c = false)
    ∧ (b = true → m' = m)
    ∧ (b = false →
       self m' = self m
       ∧ (is_Some (heap m !! syntax_errors (self m)) →
          deref m' (syntax_errors (self m))
          = deref m (syntax_errors (self m)) ++ [input_error])
       ∧ ∀ l, l ≠ syntax_errors (self m) → heap m' !! l = heap m !! l).
Proof.
  eexists _, _. split; [apply _validate_input_run |].
  split; [apply accepts_iff |].
  destruct (accepts code).
  - split; [reflexivity | discriminate].
  - split; [discriminate | intros _].
    cbn. split; [reflexivity |]. split.
    + intros [ds L]. unfold deref; cbn.
      rewrite lookup_alter_eq, L. reflexivity.
    + intros l N. apply lookup_alter_ne. congruence.
Qed.

(** X4: [parse] puts its entries in a list object that did not exist
    before the call and changes no list that did: the entries of every
    earlier result stay as they were, whatever is parsed next. *)
Theorem parse_keeps_old_lists (code : PyValue) (m : Machine AST) :
  ∃ r m', parse ast_parse clock code m = (Returns r, m')
    ∧ heap m !! ParseResult.syntax_errors r = None
    ∧ ∀ l, is_Some (heap m !! l) →
           ParseResult.syntax_errors r ≠ l ∧ deref m' l = deref m l.
Proof.
  by_run code m.
  assert (F : heap m !! fresh (dom (heap m)) = None).
  { apply not_elem_of_dom, is_fresh. }
  split; [exact F |].
  intros l [ds L].
  assert (N : fresh (dom (heap m)) ≠ l) by congruence.
  split; [exact N |].
  unfold deref; cbn. rewrite lookup_insert_ne by exact N. reflexivity.
Qed.

(** X5: what a call returns does not depend on what the instance went
    through before: from any two states, the same input gives the same
    [success], tree and entries. *)
Theorem parse_forgets_history (code : PyValue) (m1 m2 : Machine AST) :
  ∃ r1 m1' r2 m2',
    parse ast_parse clock code m1 = (Returns r1, m1')
    ∧ parse ast_parse clock code m2 = (Returns r2, m2')
    ∧ ParseResult.success r1 = ParseResult.success r2
    ∧ ParseResult.ast_tree r1 = ParseResult.ast_tree r2
    ∧ deref m1' (ParseResult.syntax_errors r1)
      = deref m2' (ParseResult.syntax_errors r2).
Proof.
  pose proof (parse_run ast_parse clock code m1) as E1; cbv zeta in E1.
  pose proof (parse_run ast_parse clock code m2) as E2; cbv zeta in E2.
  eexists _, _, _, _. split; [exact E1 |]. split; [exact E2 |].
  cbn -[fresh dom insert alter lookup].
  split; [reflexivity |]. split; [reflexivity |].
  unfold deref; cbn. rewrite !lookup_insert_eq. reflexivity.
Qed.

(** X6: one call reads the clock twice.  It calls [ast.parse] either not at
    all, and then the result holds the entry [input_error], or once, on the
    input as it was passed (not on the stripped text), and then the input
    is a [str] that [strip()] does not empty and no entry is an
    [InputError]. *)
Theorem parse_external_calls (code : PyValue) (m : Machine AST) :
  ∃ r m', parse ast_parse clock code m = (Returns r, m')
    ∧ clock_reads m' = S (S (clock_reads m))
    ∧ ((parser_calls m' = parser_calls m
        ∧ deref m' (ParseResult.syntax_errors r) = [input_error])
       ∨ (parser_calls m' = code :: parser_calls m
          ∧ (∃ s, code = PyStr s ∧ strip s ≠ [])
          ∧ ∀ d, d ∈ deref m' (ParseResult.syntax_errors r) →
                 type d = str_of "ParseError")).
Proof.
  by_run code m.
  split; [reflexivity |].
  unfold deref; cbn. rewrite lookup_insert_eq; cbn.
  destruct (accepts code) eqn:A.
  - right. split; [reflexivity |]. split.
    + destruct code as [s | | | |]; try discriminate A.
      exists s. split; [reflexivity |]. cbn in A.
      destruct (strip s); [discriminate A | discriminate].
    + rewrite (findings_accepted ast_parse _ A).
      destruct (ast_parse code) as [t | [exc | description]]; cbn;
        intros d I.
      * apply elem_of_nil in I. contradiction.
      * apply list_elem_of_singleton in I. subst d. reflexivity.
      * apply list_elem_of_singleton in I. subst d. reflexivity.
  - left. rewrite (findings_rejected ast_parse _ A). auto.
Qed.

(** X7: a result never holds more than one entry, and every entry has
    severity ["error"], stage ["syntax"] and type ["InputError"] or
    ["ParseError"]. *)
Theorem entries_shape (code : PyValue) (m : Machine AST) :
  ∃ r m', parse ast_parse clock code m = (Returns r, m')
    ∧ length (deref m' (ParseResult.syntax_errors r)) ≤ 1
    ∧ ∀ d, d ∈ deref m' (ParseResult.syntax_errors r) →
           severity d = str_of "error"
           ∧ stage d = str_of "syntax"
           ∧ (type d = str_of "InputError" ∨ type d = str_of "ParseError").
Proof.
  by_run code m.
  unfold deref; cbn. rewrite lookup_insert_eq; cbn.
  unfold findings.
  destruct (accepts code);
    [destruct (ast_parse code) as [t | [exc | description]] |]; cbn;
    (split; [lia |]); intros d I;
    try (apply elem_of_nil in I; contradiction);
    apply list_elem_of_singleton in I; subst d; cbn; auto.
Qed.

(** X8: right after [parse] the accessors return what the result holds:
    [has_syntax_errors] the negation of [success], [get_ast] the tree,
    [get_errors] the very list object of the result, and [_build_result]
    the result again; [source_code] holds the input, whatever it is, and
    [filenmae] is what it was. *)
Theorem accessors_mirror_result (code : PyValue) (m : Machine AST) :
  ∃ r m', parse ast_parse clock code m = (Returns r, m')
    ∧ has_syntax_errors m' = (Returns (negb (ParseResult.success r)), m')
    ∧ get_ast m' = (Returns (ParseResult.ast_tree r), m')
    ∧ get_errors m' = (Returns (ParseResult.syntax_errors r), m')
    ∧ _build_result m' = (Returns r, m')
    ∧ source_code (self m') = code
    ∧ filenmae (self m') = filenmae (self m).
Proof.
  by_run code m.
  split; [| split; [| repeat split]].
  - query. unfold deref; cbn. rewrite lookup_insert_eq; cbn.
    destruct (findings_cases ast_parse code) as [(t & F) | (d & F & _)];
      rewrite F; reflexivity.
  - query.
    destruct (findings_cases ast_parse code) as [(t & F) | (d & F & _)];
      rewrite F; reflexivity.
Qed.

(** X9: the list of the result is the instance's own list, not a copy.
    When a caller appends to it, [has_syntax_errors] answers true and
    [get_errors] shows the new entry, also after a successful call;
    [get_ast] answers as before. *)
Theorem returned_list_is_shared
    (code : PyValue) (m : Machine AST) (d : Diagnostic) :
  ∃ r m' m'',
    parse ast_parse clock code m = (Returns r, m')
    ∧ list_append (ParseResult.syntax_errors r) d m' = (Returns tt, m'')
    ∧ has_syntax_errors m'' = (Returns true, m'')
    ∧ get_ast m'' = (Returns (ParseResult.ast_tree r), m'')
    ∧ ∃ l, get_errors m'' = (Returns l, m'')
           ∧ deref m'' l = deref m' (ParseResult.syntax_errors r) ++ [d].
Proof.
  pose proof (parse_run ast_parse clock code m) as E; cbv zeta in E.
  eexists _, _, _. split; [exact E |]. split; [reflexivity |].
  split; [| split].
  - query. unfold deref; cbn.
    rewrite alter_insert_eq, lookup_insert_eq; cbn.
    rewrite length_app, Nat.add_comm. reflexivity.
  - query.
    destruct (findings_cases ast_parse code) as [(t & F) | (d' & F & _)];
      rewrite F; reflexivity.
  - eexists. split; [reflexivity |].
    unfold deref; cbn.
    rewrite alter_insert_eq, !lookup_insert_eq. reflexivity.
Qed.

(** X10: when [ast.parse] raises, [_safe_parse] does not touch
    [ast_trees]: a tree stored by an earlier success stays in the
    attribute, but the flag is false and [get_ast] returns [None]. *)
Theorem failed_parse_keeps_tree
    (code : PyValue) (e : PyException) (m : Machine AST) :
  ast_parse code = Raises e →
  ∃ m', _safe_parse ast_parse code m = (Returns tt, m')
    ∧ ast_trees (self m') = ast_trees (self m)
    ∧ parse_success (self m') = false
    ∧ get_ast m' = (Returns None, m').
Proof.
  intros P. rewrite _safe_parse_run, P.
  eexists. split; [reflexivity |].
  destruct e as [exc | description]; repeat split.
Qed.

(** X11: when [ast.parse] returns, [_safe_parse] stores the tree and sets
    the flag, and leaves the list as it is: entries that are in it stay,
    so that [has_syntax_errors] is still true.  Emptying the list is left
    to [_reset_state]. *)
Theorem safe_parse_keeps_entries
    (code : PyValue) (t : AST) (m : Machine AST) :
  ast_parse code = Returns t →
  deref m (syntax_errors (self m)) ≠ [] →
  ∃ m', _safe_parse ast_parse code m = (Returns tt, m')
    ∧ get_ast m' = (Returns (Some t), m')
    ∧ heap m' = heap m
    ∧ has_syntax_errors m' = (Returns true, m').
Proof.
  intros P N. rewrite _safe_parse_run, P.
  eexists. split; [reflexivity |].
  split; [reflexivity |]. split; [reflexivity |].
  query. unfold deref in *; cbn.
  destruct (default [] (heap m !! syntax_errors (self m)));
    [congruence | reflexivity].
Qed.

(** X12: a new instance has a list object of its own that is new in the
    heap and empty: before the first [parse], [has_syntax_errors] is
    false, [get_ast] is [None] and [get_errors] is an empty list; the
    lists that were in the heap are as they were. *)
Theorem fresh_instance
    (filename : option str) (h : gmap loc (list Diagnostic))
    (n : nat) (c : list PyValue) :
  let m : Machine AST := __init__ filename h n c in
  has_syntax_errors m = (Returns false, m)
  ∧ get_ast m = (Returns None, m)
  ∧ (∃ l, get_errors m = (Returns l, m) ∧ deref m l = [] ∧ h !! l = None)
  ∧ ∀ l, is_Some (h !! l) → heap m !! l = h !! l.
Proof.
  cbv zeta.
  assert (F : h !! fresh (dom h) = None) by apply not_elem_of_dom, is_fresh.
  split; [| split; [reflexivity | split]].
  - query. unfold deref; cbn. rewrite lookup_insert_eq. reflexivity.
  - eexists. split; [reflexivity |]. split; [| exact F].
    unfold deref; cbn. rewrite lookup_insert_eq. reflexivity.
  - intros l [ds L]. cbn. apply lookup_insert_ne. congruence.
Qed.

(** X13: instances do not share state.  For another instance whose list
    is in the heap, a [parse] on this instance changes nothing of what
    the other's accessors return. *)
Theorem other_instance_untouched
    (other : CodeParser AST) (code : PyValue) (m : Machine AST) :
  is_Some (heap m !! syntax_errors other) →
  ∃ r m', parse ast_parse clock code m = (Returns r, m')
    ∧ (has_syntax_errors
         (mkMachine AST other (heap m') (clock_reads m') (parser_calls m'))).1
      = (has_syntax_errors
           (mkMachine AST other (heap m) (clock_reads m) (parser_calls m))).1
    ∧ (get_ast
         (mkMachine AST other (heap m') (clock_reads m') (parser_calls m'))).1
      = (get_ast
           (mkMachine AST other (heap m) (clock_reads m) (parser_calls m))).1
    ∧ heap m' !! syntax_errors other = heap m !! syntax_errors other.
Proof.
  intros [ds L].
  by_run code m.
  assert (N : fresh (dom (heap m)) ≠ syntax_errors other).
  { intros Eq. pose proof (is_fresh (dom (heap m))) as F.
    apply not_elem_of_dom in F. congruence. }
  split; [| split].
  - query. unfold deref; cbn. rewrite lookup_insert_ne by exact N.
    reflexivity.
  - query. destruct (parse_success other); reflexivity.
  - apply lookup_insert_ne. exact N.
Qed.

End Coverage.

(** X1 at the text ["x = 1 + 2"]. *)
Lemma parsed_tree_is_returned_witness :
  ∃ r m', parse sample_parse steady_clock (PyStr (str_of "x = 1 + 2"))
                (__init__ None ∅ 0 []) = (Returns r, m')
    ∧ ParseResult.success r = true
    ∧ ParseResult.ast_tree r = Some (str_of "x = 1 + 2")
    ∧ deref m' (ParseResult.syntax_errors r) = []
    ∧ get_ast m' = (Returns (Some (str_of "x = 1 + 2")), m')
    ∧ has_syntax_errors m' = (Returns false, m').
Proof.
  apply (parsed_tree_is_returned sample_parse steady_clock
           (str_of "x = 1 + 2") (str_of "x = 1 + 2") (__init__ None ∅ 0 []));
    [vm_compute; discriminate | reflexivity].
Defined.

(** A state in which an earlier success left the tree ["x"] and the flag. *)
Lemma failed_parse_keeps_tree_witness :
  let m := mkMachine str
             (mkCodeParser str None (PyStr (str_of "x")) (Some (str_of "x"))
                           1%positive true 0%Q)
             {[ 1%positive := [] ]} 2 [PyStr (str_of "x")] in
  ∃ m', _safe_parse sample_parse (PyStr (str_of "(")) m = (Returns tt, m')
    ∧ ast_trees (self m') = ast_trees (self m)
    ∧ parse_success (self m') = false
    ∧ get_ast m' = (Returns None, m').
Proof.
  intros m.
  apply (failed_parse_keeps_tree sample_parse (PyStr (str_of "("))
           (ExcSyntaxError
              (mkSyntaxError (Some 1%Z) (Some 1%Z)
                             (str_of "'(' was never closed"))) m).
  reflexivity.
Defined.

(** A state in which an earlier failure left the entry [input_error]. *)
Lemma safe_parse_keeps_entries_witness :
  let m := mkMachine str
             (mkCodeParser str None PyNone None 1%positive false 0%Q)
             {[ 1%positive := [input_error] ]} 2 [] in
  ∃ m', _safe_parse sample_parse (PyStr (str_of "x")) m = (Returns tt, m')
    ∧ get_ast m' = (Returns (Some (str_of "x")), m')
    ∧ heap m' = heap m
    ∧ has_syntax_errors m' = (Returns true, m').
Proof.
  intros m.
  apply (safe_parse_keeps_entries sample_parse (PyStr (str_of "x"))
           (str_of "x") m);
    [reflexivity | vm_compute; discriminate].
Defined.

(** Two instances made one after the other; the first parses ["("]. *)
Lemma other_instance_untouched_witness :
  let a : Machine str := __init__ None ∅ 0 [] in
  let b : Machine str := __init__ (Some (str_of "b.py")) (heap a) 0 [] in
  let m := mkMachine str (self a) (heap b) 0 [] in
  ∃ r m', parse sample_parse steady_clock (PyStr (str_of "(")) m
          = (Returns r, m')
    ∧ (has_syntax_errors
         (mkMachine str (self b) (heap m') (clock_reads m') (parser_calls m'))).1
      = (has_syntax_errors
           (mkMachine str (self b) (heap m) (clock_reads m) (parser_calls m))).1
    ∧ (get_ast
         (mkMachine str (self b) (heap m') (clock_reads m') (parser_calls m'))).1
      = (get_ast
           (mkMachine str (self b) (heap m) (clock_reads m) (parser_calls m))).1
    ∧ heap m' !! syntax_errors (self b) = heap m !! syntax_errors (self b).
Proof.
  intros a b m.
  apply (other_instance_untouched sample_parse steady_clock (self b)
           (PyStr (str_of "(")) m).
  vm_compute. eexists. reflexivity.
Defined.
